(** * Campus access control and attendance admission of the EAS backend

    A shallow embedding of the Django models and middleware in
    [apps/accounts/models.py], [apps/campus/models.py],
    [apps/campus/managers.py], [apps/shared/middleware.py],
    [apps/events/models.py] and [apps/attendance/models.py].

    Modelling conventions:
    - primary keys of [Campus] and [User] (Django AutoField) are [Z];
      the [Event] primary key is a UUID, kept as its text form;
    - a [DateTimeField] value is a [Z] count of minutes; a [DateField]
      value is a day number and a [TimeField] value the minutes since
      midnight, so [datetime.combine d t] is [d * 1440 + t];
      [timezone.make_aware] is taken as the identity (UTC);
    - a database table is a list of rows in insertion order;
    - Python truthiness is written out where the code relies on it
      (an empty list, [None], the integer [0], the empty string). *)

From Stdlib Require Import ZArith NArith List Bool String Ascii Lia Permutation.
Import ListNotations.
Open Scope Z_scope.

(* ------------------------------------------------------------------ *)
(** ** Campus and user (apps/campus/models.py, apps/accounts/models.py) *)

Record Campus := mkCampus {
  campus_pk : Z;
  campus_is_active : bool
}.

Record CampusConfiguration := mkCampusConfiguration {
  cfg_campus_id : Z;
  qr_code_expiry_hours : N;
  attendance_window_minutes : N;
  gps_radius_meters : N
}.

(** [User.ROLE_CHOICES]. *)
Inductive Role := Student | Organizer | CampusAdmin | SuperAdmin.

Definition role_eqb (r1 r2 : Role) : bool :=
  match r1, r2 with
  | Student, Student | Organizer, Organizer
  | CampusAdmin, CampusAdmin | SuperAdmin, SuperAdmin => true
  | _, _ => false
  end.

Record User := mkUser {
  user_pk : Z;
  user_campus_id : Z;                 (* User.campus (required FK) *)
  role : Role;
  accessible_campus_ids : list Z      (* JSONField(default=list) *)
}.

Definition Z_mem (x : Z) (l : list Z) : bool := existsb (Z.eqb x) l.

(** The rows of [Campus.objects.filter(is_active=True)], as ids. *)
Definition active_campus_ids (campuses : list Campus) : list Z :=
  map campus_pk (filter campus_is_active campuses).

(** [User.get_accessible_campus_ids]. *)
Definition get_accessible_campus_ids (campuses : list Campus) (u : User)
  : list Z :=
  if role_eqb (role u) SuperAdmin then active_campus_ids campuses
  else if role_eqb (role u) CampusAdmin
          && negb (match accessible_campus_ids u with [] => true | _ => false end)
  then accessible_campus_ids u
  else [user_campus_id u].

(** [User.can_access_campus]. *)
Definition can_access_campus (campuses : list Campus) (u : User) (cid : Z) : bool :=
  Z_mem cid (get_accessible_campus_ids campuses u).

(* ------------------------------------------------------------------ *)
(** ** Python's [int(str)] on a header value *)

(** A [request.META] value is a latin-1 decoded [str], so each of its
    characters is one byte here. CPython's [int] first turns every
    non-ASCII whitespace character into a space (in latin-1: U+0085 and
    U+00A0; other non-ASCII characters, having no decimal value, end in
    [ValueError]) and then skips the spaces of [Py_ISSPACE] (tab, LF, VT,
    FF, CR, space) around the number; the ASCII separators 0x1C-0x1F are
    left in place and so are rejected. *)
Definition is_py_space (c : ascii) : bool :=
  match nat_of_ascii c with
  | 32 | 9 | 10 | 11 | 12 | 13 | 133 | 160 => true
  | _ => false
  end%nat.

Fixpoint strip_left (l : list ascii) : list ascii :=
  match l with
  | c :: r => if is_py_space c then strip_left r else l
  | [] => []
  end.

(** The whitespace [int] skips on both sides. *)
Definition py_strip (l : list ascii) : list ascii :=
  rev (strip_left (rev (strip_left l))).

Definition digit_value (c : ascii) : option Z :=
  let n := nat_of_ascii c in
  if (48 <=? n)%nat && (n <=? 57)%nat then Some (Z.of_nat n - 48) else None.

(** Decimal digits with single underscores between digits, as [int]
    accepts them; [after_digit] tells whether the previous character was
    a digit. *)
Fixpoint digits_value (l : list ascii) (acc : Z) (after_digit : bool)
  : option Z :=
  match l with
  | [] => if after_digit then Some acc else None
  | c :: r =>
      match digit_value c with
      | Some d => digits_value r (acc * 10 + d) true
      | None =>
          if after_digit && Ascii.eqb c "_"%char
          then digits_value r acc false
          else None
      end
  end.

(** The number of decimal digits, underscores not counted. *)
Definition digit_count (l : list ascii) : nat :=
  List.length (filter (fun c => match digit_value c with
                                | Some _ => true
                                | None => false
                                end) l).

(** [sys.get_int_max_str_digits()] at its default. *)
Definition max_str_digits : Z := 4300.

(** The digits after the sign: a string of more than [max_str_digits]
    digits raises [ValueError]. *)
Definition int_digits (l : list ascii) : option Z :=
  if max_str_digits <? Z.of_nat (digit_count l) then None
  else digits_value l 0 false.

(** [int(s)]: [None] stands for the [ValueError]. *)
Definition py_int (s : string) : option Z :=
  match py_strip (list_ascii_of_string s) with
  | c :: r =>
      if Ascii.eqb c "-"%char then option_map Z.opp (int_digits r)
      else if Ascii.eqb c "+"%char then int_digits r
      else int_digits (c :: r)
  | [] => None
  end.

(* ------------------------------------------------------------------ *)
(** ** [CampusContextMiddleware.process_request] (apps/shared/middleware.py) *)

(** Outcome of [Campus.objects.get(...)]. *)
Inductive GetResult (A : Type) :=
| Found (a : A)
| DoesNotExist
| MultipleObjectsReturned.
Arguments Found {A} a.
Arguments DoesNotExist {A}.
Arguments MultipleObjectsReturned {A}.

Definition objects_get {A} (rows : list A) (p : A -> bool) : GetResult A :=
  match filter p rows with
  | [a] => Found a
  | [] => DoesNotExist
  | _ => MultipleObjectsReturned
  end.

(** The campus attributes set on the request: [request.campus] (as the
    campus id) and [request.accessible_campuses] (as ids). *)
Record RequestContext := mkRequestContext {
  request_campus : option Z;
  request_accessible_campuses : list Z
}.

(** Either the context, or an exception escaping the middleware. *)
Inductive MiddlewareOutcome :=
| Passed (ctx : RequestContext)
| Raised (exn : string).

(** [request.user] is [None] for an anonymous user; [header] is
    [request.META.get('HTTP_X_CAMPUS_ID')]. *)
Definition process_request (campuses : list Campus) (user : option User)
    (header : option string) : MiddlewareOutcome :=
  match user with
  | None => Passed (mkRequestContext None [])
  | Some u =>
      let campus0 := Some (user_campus_id u) in
      let accessible_ids := get_accessible_campus_ids campuses u in
      let accessible :=
        map campus_pk
          (filter (fun c => Z_mem (campus_pk c) accessible_ids
                            && campus_is_active c) campuses) in
      let keep := Passed (mkRequestContext campus0 accessible) in
      match header with
      | Some h =>
          if negb (String.eqb h "")
             && (role_eqb (role u) CampusAdmin || role_eqb (role u) SuperAdmin)
          then
            match py_int h with
            | None => keep                                   (* ValueError *)
            | Some x =>
                match objects_get campuses
                        (fun c => Z.eqb (campus_pk c) x
                                  && Z_mem (campus_pk c)
                                       (get_accessible_campus_ids campuses u)) with
                | Found c => Passed (mkRequestContext (Some (campus_pk c)) accessible)
                | DoesNotExist => keep
                | MultipleObjectsReturned => Raised "MultipleObjectsReturned"
                end
            end
          else keep
      | None => keep
      end
  end.

(** The effective campus the middleware leaves on the request. *)
Definition effective_campus (campuses : list Campus) (u : User)
    (header : option string) : option Z :=
  match process_request campuses (Some u) header with
  | Passed ctx => request_campus ctx
  | Raised _ => None
  end.

(* ------------------------------------------------------------------ *)
(** ** [CampusAwareQuerySet.accessible_to_user] (apps/campus/managers.py) *)

Section QuerySet.
Variable Row : Type.
Variable row_campus_id : Row -> Z.

Definition for_campus (qs : list Row) (cid : Z) : list Row :=
  filter (fun r => Z.eqb (row_campus_id r) cid) qs.

(** [campus_id=None] is [None]; a Python [0] is falsy. *)
Definition accessible_to_user (campuses : list Campus) (qs : list Row)
    (u : User) (campus_id : option Z) : list Row :=
  if role_eqb (role u) SuperAdmin then
    match campus_id with
    | Some c => if Z.eqb c 0 then qs else for_campus qs c
    | None => qs
    end
  else
    let accessible := get_accessible_campus_ids campuses u in
    match campus_id with
    | Some c =>
        if negb (Z.eqb c 0) && Z_mem c accessible then for_campus qs c
        else for_campus qs (user_campus_id u)
    | None => for_campus qs (user_campus_id u)
    end.
(** [CampusAwareQuerySet.for_user_campus]. *)
Definition for_user_campus (qs : list Row) (u : User) : list Row :=
  if role_eqb (role u) SuperAdmin then qs else for_campus qs (user_campus_id u).
End QuerySet.
Arguments for_campus {Row} row_campus_id qs cid.
Arguments accessible_to_user {Row} row_campus_id campuses qs u campus_id.
Arguments for_user_campus {Row} row_campus_id qs u.

(** [CampusViewSet.get_queryset] (apps/campus/api/views.py). *)
Definition campus_viewset_queryset (campuses : list Campus) (u : User)
    : list Campus :=
  if role_eqb (role u) SuperAdmin then campuses
  else filter (fun c => Z_mem (campus_pk c) (get_accessible_campus_ids campuses u))
              campuses.

(* ------------------------------------------------------------------ *)
(** ** Python's [str(int)] and [CampusContextMiddleware.process_response] *)

Definition ascii_of_digit (d : Z) : ascii := ascii_of_nat (Z.to_nat d + 48).

(** The decimal digits of [n >= 0] put in front of [acc]; [fuel] bounds
    the number of divisions. *)
Fixpoint dec_digits (fuel : nat) (n : Z) (acc : list ascii) : list ascii :=
  match fuel with
  | O => acc
  | S f =>
      let acc' := ascii_of_digit (n mod 10) :: acc in
      if n / 10 =? 0 then acc' else dec_digits f (n / 10) acc'
  end.

(** [str(z)] for a Python [int]. *)
Definition py_str (z : Z) : string :=
  string_of_list_ascii
    (if z <? 0 then "-"%char :: dec_digits (S (Z.to_nat (- z))) (- z) []
     else dec_digits (S (Z.to_nat z)) z []).

(** [response[name] = value]: the header is set, replacing an earlier one. *)
Definition set_header (hs : list (string * string)) (name value : string)
    : list (string * string) :=
  (name, value) :: filter (fun p => negb (String.eqb (fst p) name)) hs.

(** [process_response]; [campus_code] gives [Campus.code] by id. *)
Definition process_response (campus_code : Z -> string) (ctx : RequestContext)
    (hs : list (string * string)) : list (string * string) :=
  match request_campus ctx with
  | Some c => set_header (set_header hs "X-Campus-ID" (py_str c))
                "X-Campus-Code" (campus_code c)
  | None => hs
  end.

Fixpoint header_lookup (hs : list (string * string)) (name : string)
    : option string :=
  match hs with
  | [] => None
  | (k, v) :: r => if String.eqb k name then Some v else header_lookup r name
  end.

(* ------------------------------------------------------------------ *)
(** ** Event (apps/events/models.py) *)

Record Event := mkEvent {
  event_pk : string;                  (* UUIDField(default=uuid.uuid4) *)
  event_campus_id : Z;
  date : Z;                           (* DateField, required *)
  start_time : Z;                     (* TimeField, required *)
  end_time : Z;                       (* TimeField, required *)
  is_multi_campus : bool;
  allowed_campuses : list Z;          (* JSONField(default=list) *)
  max_participants : option N;        (* PositiveIntegerField(null=True) *)
  qr_code : option string;            (* ImageField: the stored file name *)
  qr_code_data : string;
  attendance_window_start : option Z;
  attendance_window_end : option Z
}.

Definition minutes_per_day : Z := 1440.

(** [timezone.make_aware(datetime.combine(d, t))]. *)
Definition combine (d t : Z) : Z := d * minutes_per_day + t.

Definition set_window (e : Event) (ws we : option Z) : Event :=
  {| event_pk := event_pk e; event_campus_id := event_campus_id e;
     date := date e; start_time := start_time e; end_time := end_time e;
     is_multi_campus := is_multi_campus e;
     allowed_campuses := allowed_campuses e;
     max_participants := max_participants e;
     qr_code := qr_code e; qr_code_data := qr_code_data e;
     attendance_window_start := ws; attendance_window_end := we |}.

Definition set_qr (e : Event) (img : option string) (data : string) : Event :=
  {| event_pk := event_pk e; event_campus_id := event_campus_id e;
     date := date e; start_time := start_time e; end_time := end_time e;
     is_multi_campus := is_multi_campus e;
     allowed_campuses := allowed_campuses e;
     max_participants := max_participants e;
     qr_code := img; qr_code_data := data;
     attendance_window_start := attendance_window_start e;
     attendance_window_end := attendance_window_end e |}.

(** The payload [f"https://easuniversity.site/attend/{self.id}"]. *)
Definition qr_url (id : string) : string :=
  "https://easuniversity.site/attend/" ++ id.

(** [Model.save] on the events table: update the row with the same
    primary key, or insert a new one. *)
Fixpoint upsert_event (db : list Event) (e : Event) : list Event :=
  match db with
  | [] => [e]
  | r :: rest =>
      if String.eqb (event_pk r) (event_pk e) then e :: rest
      else r :: upsert_event rest e
  end.

(** [Event.objects.filter(id=...).update(qr_code=..., qr_code_data=...)]. *)
Definition update_qr (db : list Event) (id : string) (img : option string)
    (data : string) : list Event :=
  map (fun r => if String.eqb (event_pk r) id then set_qr r img data else r) db.

(** [Event.generate_qr_code]; the UUID primary key is always truthy, so
    the [if not self.id] guard never returns early. The image bytes are
    not modelled, only the file name given to [qr_code.save]. *)
Definition generate_qr_code (db : list Event) (e : Event) : list Event * Event :=
  let qr_data := qr_url (event_pk e) in
  let filename := ("qr_event_" ++ event_pk e ++ ".png")%string in
  (update_qr db (event_pk e) (Some filename) qr_data,
   set_qr e (Some filename) qr_data).

(** [Event.save]. *)
Definition event_save (db : list Event) (e : Event) : list Event * Event :=
  let e1 :=
    match attendance_window_start e with
    | None =>
        let event_datetime := combine (date e) (start_time e) in
        set_window e (Some (event_datetime - 30)) (Some (event_datetime + 30))
    | Some _ => e
    end in
  let db1 := upsert_event db e1 in
  match qr_code e1 with
  | None => generate_qr_code db1 e1
  | Some _ => (db1, e1)
  end.

(** [Event.can_mark_attendance], with [timezone.now()] as [now]. *)
Definition can_mark_attendance (e : Event) (now : Z) : bool :=
  match attendance_window_start e, attendance_window_end e with
  | Some ws, Some we => (ws <=? now) && (now <=? we)
  | _, _ => false
  end.

(* ------------------------------------------------------------------ *)
(** ** Attendance (apps/attendance/models.py) *)

(** [Attendance.STATUS_CHOICES]. *)
Inductive Status := Present | Absent | Late | Excused.

Definition is_present (s : Status) : bool :=
  match s with Present => true | _ => false end.

Record Attendance := mkAttendance {
  att_campus_id : option Z;           (* unset until [save] fills it *)
  att_event : string;
  att_user : Z;
  att_status : Status;
  cross_campus_attendance : bool;
  marked_at : Z;
  arrival_time : option Z
}.

(** [Attendance.save] before the call to [super().save]: the fields it
    derives from the user and the event. *)
Definition attendance_prepare (u : User) (e : Event) (a : Attendance)
    : Attendance :=
  {| att_campus_id :=
       match att_campus_id a with
       | None => Some (event_campus_id e)
       | Some c => Some c
       end;
     att_event := att_event a;
     att_user := att_user a;
     att_status := att_status a;
     cross_campus_attendance :=
       negb (Z.eqb (user_campus_id u) (event_campus_id e));
     marked_at := marked_at a;
     arrival_time :=
       match arrival_time a with
       | None => Some (marked_at a mod minutes_per_day)
       | Some t => Some t
       end |}.

(** The attendance table; [unique_together = ['event', 'user']]. *)
Definition att_key (a : Attendance) : string * Z := (att_event a, att_user a).

Definition same_key (k : string * Z) (a : Attendance) : bool :=
  String.eqb (fst k) (att_event a) && Z.eqb (snd k) (att_user a).

(** An INSERT: [None] is the [IntegrityError] of the unique constraint. *)
Definition db_insert (s : list Attendance) (a : Attendance)
    : option (list Attendance) :=
  if existsb (same_key (att_key a)) s then None else Some (s ++ [a]).

Fixpoint remove_nth {A} (i : nat) (l : list A) : list A :=
  match l, i with
  | [], _ => []
  | _ :: r, O => r
  | x :: r, S j => x :: remove_nth j r
  end.

Fixpoint replace_nth {A} (i : nat) (a : A) (l : list A) : list A :=
  match l, i with
  | [], _ => []
  | _ :: r, O => a :: r
  | x :: r, S j => x :: replace_nth j a r
  end.

(** An UPDATE of the row at position [i]; refused by the constraint when
    another row already has the new (event, user) pair. *)
Definition db_update (s : list Attendance) (i : nat) (a : Attendance)
    : option (list Attendance) :=
  if (i <? List.length s)%nat then
    if existsb (same_key (att_key a)) (remove_nth i s) then None
    else Some (replace_nth i a s)
  else None.

(** A DELETE of the rows matching a predicate. *)
Definition db_delete (s : list Attendance) (p : Attendance -> bool)
    : list Attendance :=
  filter (fun a => negb (p a)) s.

(** Every write to the attendance table goes through the database and
    its unique constraint; [Attendance.save] derives its fields first. *)
Inductive db_step : list Attendance -> list Attendance -> Prop :=
| step_insert s s' u e a :
    db_insert s (attendance_prepare u e a) = Some s' -> db_step s s'
| step_update s s' i u e a :
    db_update s i (attendance_prepare u e a) = Some s' -> db_step s s'
| step_delete s p : db_step s (db_delete s p).

Inductive reachable : list Attendance -> Prop :=
| reach_empty : reachable []
| reach_step s s' : reachable s -> db_step s s' -> reachable s'.

(* ------------------------------------------------------------------ *)
(** ** [Event.attendance_count] and [Event.can_user_attend] *)

Definition attendance_records (s : list Attendance) (e : Event)
    : list Attendance :=
  filter (fun a => String.eqb (att_event a) (event_pk e)) s.

Definition attendance_count (s : list Attendance) (e : Event) : nat :=
  List.length (filter (fun a => is_present (att_status a)) (attendance_records s e)).

Definition msg_campus : string := "Event not available for your campus".
Definition msg_capacity : string := "Event is at capacity".
Definition msg_already : string := "Already marked attendance for this event".
Definition msg_window : string := "Attendance window is closed".
Definition msg_ok : string := "Can attend".

Definition can_user_attend (s : list Attendance) (e : Event) (u : User)
    (now : Z) : bool * string :=
  if negb (is_multi_campus e) && negb (Z.eqb (user_campus_id u) (event_campus_id e))
  then (false, msg_campus)
  else if is_multi_campus e && negb (Z_mem (user_campus_id u) (allowed_campuses e))
  then (false, msg_campus)
  else if match max_participants e with
          | Some m => negb (N.eqb m 0) && (N.to_nat m <=? attendance_count s e)%nat
          | None => false
          end
  then (false, msg_capacity)
  else if existsb (fun a => Z.eqb (att_user a) (user_pk u)) (attendance_records s e)
  then (false, msg_already)
  else if negb (can_mark_attendance e now)
  then (false, msg_window)
  else (true, msg_ok).

(** [Event.is_ongoing], with [timezone.now()] as [now]. *)
Definition is_ongoing (e : Event) (now : Z) : bool :=
  (combine (date e) (start_time e) <=? now) && (now <=? combine (date e) (end_time e)).

(** [Event.get_attendance_for_campus]. *)
Definition get_attendance_for_campus (s : list Attendance) (e : Event) (cid : Z)
    : nat :=
  List.length
    (filter (fun a => match att_campus_id a with
                      | Some c => (c =? cid) && is_present (att_status a)
                      | None => false
                      end) (attendance_records s e)).

(** [Attendance.is_late]; a [TimeField] value is always truthy. *)
Definition is_late (e : Event) (a : Attendance) : bool :=
  match arrival_time a with
  | None => false
  | Some t => start_time e <? t
  end.

(** [User.get_attendance_count]: the user's attendance rows of any
    status, narrowed to one campus when [campus_id] is truthy (a nullable
    campus never matches [filter(campus_id=...)]). *)
Definition get_attendance_count (s : list Attendance) (u : User)
    (campus_id : option Z) : nat :=
  let queryset := filter (fun a => Z.eqb (att_user a) (user_pk u)) s in
  let queryset :=
    match campus_id with
    | Some c =>
        if Z.eqb c 0 then queryset
        else filter (fun a => match att_campus_id a with
                              | Some c' => Z.eqb c' c
                              | None => false
                              end) queryset
    | None => queryset
    end in
  List.length queryset.

(** Modelled from the spec: the submission entry point [submitAttendance]
    (no view under src/ marks attendance). It runs [can_user_attend] and,
    when that passes, saves a new [Attendance] with the model defaults
    (status [present], [marked_at = now]); the save is an INSERT checked
    by the unique constraint. *)
Inductive SubmitResult :=
| Submitted (s' : list Attendance)
| Refused (reason : string)
| IntegrityError.

Definition new_attendance (e : Event) (u : User) (now : Z) : Attendance :=
  {| att_campus_id := None; att_event := event_pk e; att_user := user_pk u;
     att_status := Present; cross_campus_attendance := false;
     marked_at := now; arrival_time := None |}.

Definition submit_attendance (s : list Attendance) (e : Event) (u : User)
    (now : Z) : SubmitResult :=
  let (ok, reason) := can_user_attend s e u now in
  if ok then
    match db_insert s (attendance_prepare u e (new_attendance e u now)) with
    | Some s' => Submitted s'
    | None => IntegrityError
    end
  else Refused reason.

(* ================================================================== *)
(** * Properties *)

Example py_int_ok : py_int " 4 " = Some 4.
Proof. reflexivity. Qed.
Example py_int_us : py_int "1_0" = Some 10 /\ py_int "1__0" = None /\ py_int "x" = None.
Proof. repeat split; reflexivity. Qed.
(** U+00A0 and U+0085 around the number are skipped, the ASCII separator
    0x1C is not; 4301 digits exceed the limit. *)
Example py_int_latin1 :
  py_int (String "3" (String (ascii_of_nat 160) EmptyString)) = Some 3 /\
  py_int (String (ascii_of_nat 133) (String "3" EmptyString)) = Some 3 /\
  py_int (String (ascii_of_nat 28) (String "3" EmptyString)) = None /\
  py_int (String "3" (String (ascii_of_nat 160) (String "3" EmptyString))) = None.
Proof. repeat split; reflexivity. Qed.
Example py_int_limit :
  py_int (string_of_list_ascii (repeat "1"%char 4300)) <> None /\
  py_int (string_of_list_ascii (repeat "1"%char 4301)) = None.
Proof. split; [vm_compute; discriminate|vm_compute; reflexivity]. Qed.

(* ------------------------------------------------------------------ *)
(** ** Tenant resolution *)

Lemma filter_none {A} (p : A -> bool) (l : list A) :
  (forall c, In c l -> p c = false) -> filter p l = [].
Proof.
  induction l as [|a l IH]; intros H; simpl; [reflexivity|].
  rewrite (H a (or_introl eq_refl)). apply IH. intros c Hc. apply H. now right.
Qed.

(** With unique primary keys, a [get] by primary key never raises
    [MultipleObjectsReturned]. *)
Lemma objects_get_pk (l : list Campus) (x : Z) (q : Campus -> bool) :
  NoDup (map campus_pk l) ->
  match objects_get l (fun c => (campus_pk c =? x) && q c) with
  | Found c => campus_pk c = x /\ existsb (fun c => (campus_pk c =? x) && q c) l = true
  | DoesNotExist => existsb (fun c => (campus_pk c =? x) && q c) l = false
  | MultipleObjectsReturned => False
  end.
Proof.
  unfold objects_get.
  induction l as [|a l IH]; intros Hnd; simpl; [reflexivity|].
  inversion Hnd as [|? ? Hnotin Hnd']; subst.
  destruct ((campus_pk a =? x) && q a) eqn:Ha.
  - apply andb_prop in Ha as [Hx _]. apply Z.eqb_eq in Hx.
    rewrite filter_none; [simpl; split; [exact Hx|reflexivity]|].
    intros c Hc. destruct (campus_pk c =? x) eqn:Hcx; [|reflexivity].
    apply Z.eqb_eq in Hcx. exfalso. apply Hnotin.
    rewrite Hx, <- Hcx. now apply in_map.
  - exact (IH Hnd').
Qed.

Lemma existsb_pk_mem (l : list Campus) (x : Z) (acc : list Z) :
  existsb (fun c => (campus_pk c =? x) && Z_mem (campus_pk c) acc) l
  = Z_mem x acc && existsb (fun c => campus_pk c =? x) l.
Proof.
  induction l as [|a l IH]; simpl.
  - now rewrite andb_false_r.
  - rewrite IH. destruct (campus_pk a =? x) eqn:Hx; simpl.
    + apply Z.eqb_eq in Hx. rewrite Hx. now destruct (Z_mem x acc).
    + reflexivity.
Qed.

(** C3 (amended): with primary keys unique, the effective campus is the
    override id exactly when the role is campus-admin or super-admin, the
    header parses with [int()] (surrounding whitespace skipped, U+00A0 and
    U+0085 included; at most [max_str_digits] digits), that id is in the
    accessible set, and a
    campus with that id exists; in every other case it is the home
    campus, and no exception escapes. *)
Theorem C3_override_rule (campuses : list Campus) (u : User)
    (header : option string) :
  NoDup (map campus_pk campuses) ->
  effective_campus campuses u header =
  Some (match header with
        | Some h =>
            match py_int h with
            | Some x =>
                if (role_eqb (role u) CampusAdmin || role_eqb (role u) SuperAdmin)
                   && Z_mem x (get_accessible_campus_ids campuses u)
                   && existsb (fun c => campus_pk c =? x) campuses
                then x else user_campus_id u
            | None => user_campus_id u
            end
        | None => user_campus_id u
        end).
Proof.
  intros Hnd. unfold effective_campus, process_request.
  destruct header as [h|]; [|reflexivity].
  destruct (String.eqb h "") eqn:He.
  - apply String.eqb_eq in He. subst h. reflexivity.
  - simpl. destruct (py_int h) as [x|];
      [|destruct (role_eqb (role u) CampusAdmin || role_eqb (role u) SuperAdmin);
        reflexivity].
    destruct (role_eqb (role u) CampusAdmin || role_eqb (role u) SuperAdmin);
      simpl; [|reflexivity].
    pose proof (objects_get_pk campuses x
                  (fun c => Z_mem (campus_pk c) (get_accessible_campus_ids campuses u))
                  Hnd) as Hg.
    cbv beta in Hg. rewrite existsb_pk_mem in Hg.
    destruct (objects_get campuses _) as [c| |].
    + destruct Hg as [Hc Hex]. rewrite Hex, Hc. reflexivity.
    + rewrite Hg. reflexivity.
    + contradiction.
Qed.

Definition campuses_123 : list Campus :=
  [mkCampus 1 true; mkCampus 2 true; mkCampus 3 true].

Lemma C3_override_rule_witness :
  NoDup (map campus_pk campuses_123) /\
  effective_campus campuses_123 (mkUser 7 1 CampusAdmin [2; 3]) (Some "2"%string)
    = Some 2 /\
  effective_campus campuses_123 (mkUser 7 1 CampusAdmin [2; 3]) (Some "4"%string)
    = Some 1.
Proof.
  assert (Hnd : NoDup (map campus_pk campuses_123))
    by (repeat constructor; simpl; lia).
  split; [exact Hnd|].
  split.
  - rewrite (C3_override_rule campuses_123 _ _ Hnd). reflexivity.
  - rewrite (C3_override_rule campuses_123 _ _ Hnd). reflexivity.
Defined.

(** C3 counterexample: a campus-admin whose explicit set lists a campus id
    (99) that no campus row has; the override "99" is in the resolved
    accessible set, yet the effective campus stays the home campus 1. *)
Lemma C3_stale_id_counterexample :
  Z_mem 99 (get_accessible_campus_ids campuses_123
              (mkUser 7 1 CampusAdmin [2; 3; 99])) = true /\
  effective_campus campuses_123 (mkUser 7 1 CampusAdmin [2; 3; 99]) (Some "99"%string)
    = Some 1.
Proof. split; reflexivity. Qed.

(** C5: for a role other than campus-admin and super-admin, the accessible
    set is exactly the home campus, whatever the explicit
    [accessible_campus_ids] holds, and the effective campus is the home
    campus whatever override header is sent. *)
Theorem C5_other_roles_home_only (campuses : list Campus) (u : User)
    (header : option string) :
  role u <> CampusAdmin -> role u <> SuperAdmin ->
  get_accessible_campus_ids campuses u = [user_campus_id u] /\
  effective_campus campuses u header = Some (user_campus_id u).
Proof.
  intros Hca Hsa.
  unfold effective_campus, process_request, get_accessible_campus_ids.
  destruct (role u); try contradiction; simpl;
    (split; [reflexivity|]);
    destruct header as [h|]; try reflexivity;
    rewrite andb_false_r; reflexivity.
Qed.

Lemma C5_other_roles_home_only_witness :
  get_accessible_campus_ids campuses_123 (mkUser 5 2 Student [1; 3])
    = [2] /\
  effective_campus campuses_123 (mkUser 5 2 Student [1; 3]) (Some "3"%string) = Some 2.
Proof.
  apply (C5_other_roles_home_only campuses_123 (mkUser 5 2 Student [1; 3]) (Some "3"%string));
    simpl; discriminate.
Defined.

(** C10 (amended): for a user who is not a super-admin, [accessible_to_user]
    always filters on one campus: the requested id when it is non-zero
    (Python-truthy) and in the accessible set, the home campus otherwise. *)
Theorem C10_scoped_query {Row : Type} (row_campus_id : Row -> Z)
    (campuses : list Campus) (qs : list Row) (u : User)
    (campus_id : option Z) :
  role u <> SuperAdmin ->
  accessible_to_user row_campus_id campuses qs u campus_id =
  for_campus row_campus_id qs
    (match campus_id with
     | Some c =>
         if negb (c =? 0) && Z_mem c (get_accessible_campus_ids campuses u)
         then c else user_campus_id u
     | None => user_campus_id u
     end).
Proof.
  intros Hsa. unfold accessible_to_user.
  destruct (role_eqb (role u) SuperAdmin) eqn:Hr.
  - exfalso. apply Hsa. destruct (role u); simpl in Hr; congruence.
  - destruct campus_id as [c|]; [|reflexivity].
    destruct (negb (c =? 0) && _); reflexivity.
Qed.

Lemma C10_scoped_query_witness :
  accessible_to_user (fun r : Z => r) campuses_123 [1; 2; 3; 2]
    (mkUser 7 1 CampusAdmin [2; 3]) (Some 2) = [2; 2] /\
  accessible_to_user (fun r : Z => r) campuses_123 [1; 2; 3; 2]
    (mkUser 7 1 CampusAdmin [2; 3]) (Some 4) = [1].
Proof.
  split; rewrite (C10_scoped_query (fun r : Z => r) campuses_123 _ _ _);
    simpl; try reflexivity; discriminate.
Defined.

(** C10 counterexample: a campus-admin whose accessible set contains 0
    requests campus 0; since 0 is falsy the query falls back to the home
    campus 1, so the result holds a row that is not of campus 0. *)
Lemma C10_zero_id_counterexample :
  Z_mem 0 (get_accessible_campus_ids campuses_123 (mkUser 7 1 CampusAdmin [0; 2]))
    = true /\
  accessible_to_user (fun r : Z => r) campuses_123 [0; 1; 2]
    (mkUser 7 1 CampusAdmin [0; 2]) (Some 0) = [1].
Proof. split; reflexivity. Qed.

(* ------------------------------------------------------------------ *)
(** ** Time window and admission gates *)

(** C6: the time-window check holds exactly when both bounds are present
    and [window_start <= now <= window_end]; a missing bound is a failure. *)
Theorem C6_window_inclusive (e : Event) (now : Z) :
  can_mark_attendance e now = true <->
  exists ws we, attendance_window_start e = Some ws /\
                attendance_window_end e = Some we /\ ws <= now <= we.
Proof.
  unfold can_mark_attendance.
  destruct (attendance_window_start e) as [ws|], (attendance_window_end e) as [we|];
    split; intros H; try discriminate;
    try (destruct H as (? & ? & H1 & H2 & _); discriminate).
  - apply andb_prop in H as [H1 H2]. apply Z.leb_le in H1, H2.
    exists ws, we. repeat split; assumption || lia.
  - destruct H as (ws' & we' & H1 & H2 & H3). injection H1 as ->. injection H2 as ->.
    apply andb_true_intro. split; apply Z.leb_le; lia.
Qed.

(** The campus gate of [can_user_attend], as the spec states it. *)
Definition campus_eligible (e : Event) (u : User) : Prop :=
  (is_multi_campus e = false /\ user_campus_id u = event_campus_id e) \/
  (is_multi_campus e = true /\ In (user_campus_id u) (allowed_campuses e)).

Lemma Z_mem_In (x : Z) (l : list Z) : Z_mem x l = true <-> In x l.
Proof.
  unfold Z_mem. rewrite existsb_exists. split.
  - intros (y & Hy & Hxy). apply Z.eqb_eq in Hxy. now subst.
  - intros Hx. exists x. split; [exact Hx|apply Z.eqb_refl].
Qed.

Ltac split_ifs :=
  repeat match goal with
         | |- context [if ?c then _ else _] =>
             let H := fresh "Hc" in destruct c eqn:H
         end.

Lemma msgs_distinct :
  msg_campus <> msg_capacity /\ msg_campus <> msg_already /\
  msg_campus <> msg_window /\ msg_campus <> msg_ok /\
  msg_capacity <> msg_already /\ msg_capacity <> msg_window /\
  msg_capacity <> msg_ok.
Proof. repeat split; discriminate. Qed.

(** C4: the campus gate fails (the result carries the campus message)
    exactly when the actor is not campus-eligible; for a single-campus
    event and an actor of another campus the result is always the campus
    refusal. *)
Theorem C4_tenant_gate (s : list Attendance) (e : Event) (u : User) (now : Z) :
  (snd (can_user_attend s e u now) <> msg_campus <-> campus_eligible e u) /\
  (is_multi_campus e = false -> user_campus_id u <> event_campus_id e ->
   can_user_attend s e u now = (false, msg_campus) /\
   submit_attendance s e u now = Refused msg_campus).
Proof.
  pose proof msgs_distinct as (D1 & D2 & D3 & D4 & _).
  unfold campus_eligible, can_user_attend. split.
  - destruct (is_multi_campus e); simpl.
    + destruct (Z_mem (user_campus_id u) (allowed_campuses e)) eqn:Hm; simpl.
      * apply Z_mem_In in Hm.
        split; [intros _; right; now split|intros _].
        split_ifs; simpl; congruence.
      * split; [intros H; contradiction|].
        intros [[H _]|[_ H]]; [discriminate|].
        apply Z_mem_In in H. congruence.
    + destruct (user_campus_id u =? event_campus_id e) eqn:Hq; simpl.
      * apply Z.eqb_eq in Hq.
        split; [intros _; left; now split|intros _].
        split_ifs; simpl; congruence.
      * apply Z.eqb_neq in Hq.
        split; [intros H; contradiction|].
        intros [[_ H]|[H _]]; [contradiction|discriminate].
  - intros Hm Hne. unfold submit_attendance, can_user_attend.
    rewrite Hm. apply Z.eqb_neq in Hne. rewrite Hne. split; reflexivity.
Qed.

(** C7 (amended): for an event whose [max_participants] is a positive
    number and an actor who passes the campus gate, the result is the
    capacity refusal exactly when the present-count has reached
    [max_participants]; when [max_participants] is unset or 0 there is no
    capacity gate: whatever the store, the capacity refusal never comes. *)
Theorem C7_capacity_gate (s : list Attendance) (e : Event) (u : User)
    (now : Z) :
  (forall m, max_participants e = Some m -> m <> 0%N -> campus_eligible e u ->
   (snd (can_user_attend s e u now) = msg_capacity <->
    (N.to_nat m <= attendance_count s e)%nat)) /\
  (max_participants e = None \/ max_participants e = Some 0%N ->
   snd (can_user_attend s e u now) <> msg_capacity).
Proof.
  pose proof msgs_distinct as (D1 & D2 & D3 & D4 & D5 & D6 & D7).
  split.
  - intros m Hmax Hm0 Hel. unfold can_user_attend. rewrite Hmax.
    assert (Hg : negb (is_multi_campus e) && negb (user_campus_id u =? event_campus_id e)
                 = false /\
                 is_multi_campus e && negb (Z_mem (user_campus_id u) (allowed_campuses e))
                 = false).
    { destruct Hel as [[H1 H2]|[H1 H2]]; rewrite H1; simpl.
      - rewrite H2, Z.eqb_refl. now split.
      - apply Z_mem_In in H2. rewrite H2. now split. }
    destruct Hg as [-> ->].
    apply N.eqb_neq in Hm0. rewrite Hm0. simpl.
    destruct (N.to_nat m <=? attendance_count s e)%nat eqn:Hc; simpl.
    + apply Nat.leb_le in Hc. tauto.
    + apply Nat.leb_gt in Hc. split; [|lia].
      split_ifs; simpl; intros H; congruence.
  - intros Hmax. unfold can_user_attend.
    destruct Hmax as [Hmax|Hmax]; rewrite Hmax; simpl;
      split_ifs; simpl; intros H; congruence.
Qed.

(** A single-campus event of campus 1 with room for one participant and
    its attendance window open over [590, 630]. *)
Definition event_cap1 : Event :=
  {| event_pk := "e1"; event_campus_id := 1; date := 0; start_time := 600;
     end_time := 660; is_multi_campus := false; allowed_campuses := [];
     max_participants := Some 1%N; qr_code := None; qr_code_data := "";
     attendance_window_start := Some 590; attendance_window_end := Some 630 |}.

Definition actor_a : User := mkUser 11 1 Student [].
Definition actor_b : User := mkUser 12 1 Student [].

Definition store_after_a : list Attendance :=
  [attendance_prepare actor_a event_cap1 (new_attendance event_cap1 actor_a 600)].

(** The spec's scenario: actor A's submission succeeds and the count
    becomes 1; actor B is then refused with the capacity message. *)
Lemma C7_capacity_gate_witness :
  submit_attendance [] event_cap1 actor_a 600 = Submitted store_after_a /\
  attendance_count store_after_a event_cap1 = 1%nat /\
  submit_attendance store_after_a event_cap1 actor_b 605 = Refused msg_capacity /\
  snd (can_user_attend store_after_a event_cap1 actor_b 605) = msg_capacity.
Proof.
  split; [reflexivity|]. split; [reflexivity|]. split; [reflexivity|].
  apply (proj1 (C7_capacity_gate store_after_a event_cap1 actor_b 605) 1%N);
    [reflexivity|discriminate|left; split; reflexivity|].
  apply Nat.leb_le; vm_compute; reflexivity.
Defined.

(** C7 counterexample: [max_participants = 0] is falsy, so the capacity
    gate is skipped and a submission is accepted although the
    present-count (0) is not below 0. *)
Lemma C7_zero_capacity_counterexample :
  let e := {| event_pk := "e0"; event_campus_id := 1; date := 0;
              start_time := 600; end_time := 660; is_multi_campus := false;
              allowed_campuses := []; max_participants := Some 0%N;
              qr_code := None; qr_code_data := "";
              attendance_window_start := Some 590;
              attendance_window_end := Some 630 |} in
  attendance_count [] e = 0%nat /\
  can_user_attend [] e actor_a 600 = (true, msg_ok).
Proof. split; reflexivity. Qed.


(* ------------------------------------------------------------------ *)
(** ** [Event.save]: attendance window and QR payload *)

Lemma event_save_shape (db : list Event) (e : Event) :
  exists e0,
    event_pk e0 = event_pk e /\ qr_code e0 = qr_code e /\
    qr_code_data e0 = qr_code_data e /\
    event_save db e =
    match qr_code e with
    | None => generate_qr_code (upsert_event db e0) e0
    | Some _ => (upsert_event db e0, e0)
    end.
Proof.
  exists (match attendance_window_start e with
          | None =>
              set_window e (Some (combine (date e) (start_time e) - 30))
                (Some (combine (date e) (start_time e) + 30))
          | Some _ => e
          end).
  unfold event_save. destruct (attendance_window_start e); repeat split.
Qed.





Lemma event_save_window_kept (db : list Event) (e : Event) (ws : Z) :
  attendance_window_start e = Some ws ->
  attendance_window_start (snd (event_save db e)) = attendance_window_start e /\
  attendance_window_end (snd (event_save db e)) = attendance_window_end e.
Proof.
  intros Hw. unfold event_save. rewrite Hw.
  destruct (qr_code e); simpl; rewrite ?Hw; split; reflexivity.
Qed.

(** C2, what [Event.save] does: saving an event whose
    [attendance_window_start] is unset sets the window to
    [start - 30 min, start + 30 min] around the event start, with a fixed
    30 minutes where the campus's [attendance_window_minutes] was meant;
    once set, later saves leave it unchanged. *)
Theorem C2_window_from_start (db : list Event) (e : Event) :
  attendance_window_start e = None ->
  let e1 := snd (event_save db e) in
  attendance_window_start e1 = Some (combine (date e) (start_time e) - 30) /\
  attendance_window_end e1 = Some (combine (date e) (start_time e) + 30) /\
  (forall db', attendance_window_start (snd (event_save db' e1))
                 = attendance_window_start e1 /\
               attendance_window_end (snd (event_save db' e1))
                 = attendance_window_end e1).
Proof.
  intros Hw.
  assert (H1 : attendance_window_start (snd (event_save db e))
                 = Some (combine (date e) (start_time e) - 30) /\
               attendance_window_end (snd (event_save db e))
                 = Some (combine (date e) (start_time e) + 30)).
  { unfold event_save. rewrite Hw. simpl. destruct (qr_code e); split; reflexivity. }
  destruct H1 as [Hs He]. simpl. split; [exact Hs|]. split; [exact He|].
  intros db'. exact (event_save_window_kept db' _ _ Hs).
Qed.

Lemma C2_window_from_start_witness :
  let e := {| event_pk := "e2"; event_campus_id := 1; date := 2;
              start_time := 600; end_time := 720; is_multi_campus := false;
              allowed_campuses := []; max_participants := None;
              qr_code := None; qr_code_data := "";
              attendance_window_start := None;
              attendance_window_end := None |} in
  attendance_window_start e = None /\
  attendance_window_start (snd (event_save [] e)) = Some 3450 /\
  attendance_window_end (snd (event_save [] e)) = Some 3510.
Proof.
  intros e. split; [reflexivity|].
  destruct (C2_window_from_start [] e eq_refl) as (Hs & He & _).
  split; [exact Hs|exact He].
Defined.

(** C2 failing input: an event on day 0 from 10:00 to 12:00 whose campus
    configures a 45-minute window gets the window [09:30, 10:30]: the
    configured 45 minutes are never read (and neither is the end time), so
    the window is not [start - 45, end + 45] = [09:15, 12:45]. *)
Lemma C2_end_and_config_counterexample :
  let cfg := mkCampusConfiguration 1 24 45 100 in
  let e := {| event_pk := "e3"; event_campus_id := 1; date := 0;
              start_time := 600; end_time := 720; is_multi_campus := false;
              allowed_campuses := []; max_participants := None;
              qr_code := None; qr_code_data := "";
              attendance_window_start := None;
              attendance_window_end := None |} in
  attendance_window_start (snd (event_save [] e)) = Some 570 /\
  attendance_window_end (snd (event_save [] e)) = Some 630 /\
  570 <> combine (date e) (start_time e) - Z.of_N (attendance_window_minutes cfg) /\
  630 <> combine (date e) (end_time e) + Z.of_N (attendance_window_minutes cfg).
Proof. vm_compute. repeat split; discriminate. Qed.

(* ------------------------------------------------------------------ *)
(** ** Uniqueness of (event, user) in the attendance table *)

Lemma same_key_true (k : string * Z) (a : Attendance) :
  same_key k a = true <-> k = att_key a.
Proof.
  destruct k as [ev us]. unfold same_key, att_key. simpl.
  rewrite andb_true_iff, String.eqb_eq, Z.eqb_eq.
  split; [intros [-> ->]; reflexivity|intros H; injection H as -> ->; now split].
Qed.

Lemma existsb_key_notin (k : string * Z) (s : list Attendance) :
  existsb (same_key k) s = false -> ~ In k (map att_key s).
Proof.
  intros Hx Hin. apply in_map_iff in Hin as (a & Ha & Hin).
  assert (existsb (same_key k) s = true) by
    (apply existsb_exists; exists a; split; [exact Hin|apply same_key_true; congruence]).
  congruence.
Qed.

Lemma In_remove_nth {A} (i : nat) (l : list A) (y : A) :
  In y (remove_nth i l) -> In y l.
Proof.
  revert i. induction l as [|x l IH]; intros [|j]; simpl; try tauto.
  intros [H|H]; [now left|right; exact (IH j H)].
Qed.

Lemma NoDup_remove_nth {A} (i : nat) (l : list A) :
  NoDup l -> NoDup (remove_nth i l).
Proof.
  revert i. induction l as [|x l IH]; intros [|j] Hnd; simpl; try exact Hnd.
  - now inversion Hnd.
  - inversion Hnd as [|? ? Hx Hnd']; subst. constructor.
    + intros Hin. apply Hx. exact (In_remove_nth j l x Hin).
    + exact (IH j Hnd').
Qed.

Lemma map_remove_nth {A B} (f : A -> B) (i : nat) (l : list A) :
  map f (remove_nth i l) = remove_nth i (map f l).
Proof.
  revert i. induction l as [|x l IH]; intros [|j]; simpl; try reflexivity.
  now rewrite IH.
Qed.

Lemma map_replace_nth {A B} (f : A -> B) (i : nat) (a : A) (l : list A) :
  map f (replace_nth i a l) = replace_nth i (f a) (map f l).
Proof.
  revert i. induction l as [|x l IH]; intros [|j]; simpl; try reflexivity.
  now rewrite IH.
Qed.

Lemma replace_nth_perm {A} (i : nat) (a : A) (l : list A) :
  (i < List.length l)%nat ->
  Permutation (replace_nth i a l) (a :: remove_nth i l).
Proof.
  revert i. induction l as [|x l IH]; intros [|j] Hi; simpl in *; try lia.
  - reflexivity.
  - rewrite (IH j ltac:(lia)). apply perm_swap.
Qed.

Lemma keys_filter_nodup (p : Attendance -> bool) (s : list Attendance) :
  NoDup (map att_key s) -> NoDup (map att_key (filter p s)).
Proof.
  intros Hnd. induction s as [|a s IH]; [constructor|].
  simpl in Hnd |- *. apply NoDup_cons_iff in Hnd as [Hna Hnd'].
  destruct (p a); [|exact (IH Hnd')].
  simpl. apply NoDup_cons_iff. split; [|exact (IH Hnd')].
  intros Hin. apply Hna. clear -Hin.
  induction s as [|b s IHs]; simpl in *; [contradiction|].
  destruct (p b); simpl in Hin; [|right; auto].
  destruct Hin as [H|H]; [now left|right; auto].
Qed.

(** Every database write keeps (event, user) unique. *)
Lemma db_step_unique (s s' : list Attendance) :
  db_step s s' -> NoDup (map att_key s) -> NoDup (map att_key s').
Proof.
  intros Hst Hnd. destruct Hst as [s s' u e a Hi|s s' i u e a Hu|s p].
  - unfold db_insert in Hi.
    destruct (existsb _ s) eqn:Hx; [discriminate|]. injection Hi as <-.
    rewrite map_app. simpl.
    apply (Permutation_NoDup (Permutation_cons_append _ _)).
    constructor; [exact (existsb_key_notin _ _ Hx)|exact Hnd].
  - unfold db_update in Hu.
    destruct (i <? List.length s)%nat eqn:Hi; [|discriminate].
    apply Nat.ltb_lt in Hi.
    destruct (existsb _ (remove_nth i s)) eqn:Hx; [discriminate|].
    injection Hu as <-.
    apply (Permutation_NoDup (Permutation_map att_key (Permutation_sym
             (replace_nth_perm i _ s Hi)))).
    apply (Permutation_NoDup (Permutation_refl _)). simpl.
    constructor; [exact (existsb_key_notin _ _ Hx)|].
    rewrite map_remove_nth. exact (NoDup_remove_nth i _ Hnd).
  - exact (keys_filter_nodup _ s Hnd).
Qed.

Lemma reachable_unique (s : list Attendance) :
  reachable s -> NoDup (map att_key s).
Proof.
  induction 1 as [|s s' _ IH Hst]; [constructor|].
  exact (db_step_unique s s' Hst IH).
Qed.

(** C1 (amended): in every reachable state each (event, user) pair has at
    most one attendance row; a submission for a pair that already has one
    is refused and changes nothing; the refusal is the campus one when
    the campus gate fails, the capacity one when the campus gate passes
    and a positive cap is reached, and the "already marked" one whenever
    the campus and capacity gates, which run first, pass. *)
Theorem C1_unique_attendance (s : list Attendance) :
  reachable s ->
  NoDup (map att_key s) /\
  forall e u now,
    existsb (same_key (event_pk e, user_pk u)) s = true ->
    (exists reason, submit_attendance s e u now = Refused reason) /\
    (~ campus_eligible e u -> submit_attendance s e u now = Refused msg_campus) /\
    (campus_eligible e u ->
     (exists m, max_participants e = Some m /\ m <> 0%N /\
                (N.to_nat m <= attendance_count s e)%nat) ->
     submit_attendance s e u now = Refused msg_capacity) /\
    (campus_eligible e u ->
     (forall m, max_participants e = Some m ->
                m = 0%N \/ (attendance_count s e < N.to_nat m)%nat) ->
     submit_attendance s e u now = Refused msg_already).
Proof.
  intros Hr. split; [exact (reachable_unique s Hr)|].
  intros e u now Hx.
  assert (Hrec : existsb (fun a => att_user a =? user_pk u) (attendance_records s e)
                 = true).
  { apply existsb_exists in Hx as (a & Hin & Ha).
    apply same_key_true in Ha. unfold att_key in Ha. injection Ha as Hev Hus.
    apply existsb_exists. exists a. split.
    - apply filter_In. split; [exact Hin|]. rewrite Hev. apply String.eqb_refl.
    - rewrite Hus. apply Z.eqb_refl. }
  assert (Hgate : campus_eligible e u ->
                  negb (is_multi_campus e) && negb (user_campus_id u =? event_campus_id e)
                  = false /\
                  is_multi_campus e && negb (Z_mem (user_campus_id u) (allowed_campuses e))
                  = false).
  { intros Hel. destruct Hel as [[H1 H2]|[H1 H2]]; rewrite H1; simpl.
    - rewrite H2, Z.eqb_refl. now split.
    - apply Z_mem_In in H2. rewrite H2. now split. }
  split; [|split; [|split]].
  - unfold submit_attendance, can_user_attend. rewrite Hrec.
    split_ifs; simpl; eexists; reflexivity.
  - intros Hne. unfold submit_attendance, can_user_attend.
    destruct (is_multi_campus e) eqn:Hm; simpl.
    + destruct (Z_mem (user_campus_id u) (allowed_campuses e)) eqn:Hz; [|reflexivity].
      exfalso. apply Hne. right. split; [exact Hm|now apply Z_mem_In].
    + destruct (user_campus_id u =? event_campus_id e) eqn:Hc; [|reflexivity].
      exfalso. apply Hne. left. split; [exact Hm|now apply Z.eqb_eq].
  - intros Hel (m & Hmax & Hm0 & Hle). unfold submit_attendance, can_user_attend.
    destruct (Hgate Hel) as [-> ->]. rewrite Hmax.
    apply N.eqb_neq in Hm0. rewrite Hm0. apply Nat.leb_le in Hle. rewrite Hle.
    reflexivity.
  - intros Hel Hcap. unfold submit_attendance, can_user_attend.
    assert (Hg : negb (is_multi_campus e) && negb (user_campus_id u =? event_campus_id e)
                 = false /\
                 is_multi_campus e && negb (Z_mem (user_campus_id u) (allowed_campuses e))
                 = false).
    { destruct Hel as [[H1 H2]|[H1 H2]]; rewrite H1; simpl.
      - rewrite H2, Z.eqb_refl. now split.
      - apply Z_mem_In in H2. rewrite H2. now split. }
    destruct Hg as [-> ->].
    destruct (max_participants e) as [m|] eqn:Hm; simpl.
    + destruct (Hcap m eq_refl) as [->|Hlt]; simpl.
      * rewrite Hrec. reflexivity.
      * destruct (N.eqb m 0); simpl; [rewrite Hrec; reflexivity|].
        apply Nat.leb_gt in Hlt. rewrite Hlt. simpl. rewrite Hrec. reflexivity.
    + rewrite Hrec. reflexivity.
Qed.

Lemma store_after_a_reachable : reachable store_after_a.
Proof.
  apply (reach_step [] store_after_a reach_empty).
  apply (step_insert [] store_after_a actor_a event_cap1
           (new_attendance event_cap1 actor_a 600)).
  reflexivity.
Qed.

(** Event [event_cap1] without a participant cap. *)
Definition event_open : Event :=
  {| event_pk := "e1"; event_campus_id := 1; date := 0; start_time := 600;
     end_time := 660; is_multi_campus := false; allowed_campuses := [];
     max_participants := None; qr_code := None; qr_code_data := "";
     attendance_window_start := Some 590; attendance_window_end := Some 630 |}.

Lemma C1_unique_attendance_witness :
  reachable store_after_a /\
  NoDup (map att_key store_after_a) /\
  submit_attendance store_after_a event_open actor_a 610 = Refused msg_already.
Proof.
  split; [exact store_after_a_reachable|].
  destruct (C1_unique_attendance store_after_a store_after_a_reachable)
    as [Hnd Hsub].
  split; [exact Hnd|].
  apply (proj2 (proj2 (proj2 (Hsub event_open actor_a 610 eq_refl)))).
  - left. split; reflexivity.
  - intros m Hm. discriminate.
Defined.

(** C1 counterexample: actor A already has a row for the event with room
    for one; A's second submission is refused by the capacity gate, which
    runs before the duplicate check, not with "already marked". *)
Lemma C1_capacity_first_counterexample :
  existsb (same_key (event_pk event_cap1, user_pk actor_a)) store_after_a = true /\
  submit_attendance store_after_a event_cap1 actor_a 610 = Refused msg_capacity.
Proof. split; reflexivity. Qed.

(* ================================================================== *)
(** * Further properties of the code *)

(* ------------------------------------------------------------------ *)
(** ** Campus-scoped query sets *)

(** [for_user_campus] is [accessible_to_user] without a requested campus,
    for every role. *)
Theorem for_user_campus_is_unrequested {Row : Type} (row_campus_id : Row -> Z)
    (campuses : list Campus) (qs : list Row) (u : User) :
  for_user_campus row_campus_id qs u
  = accessible_to_user row_campus_id campuses qs u None.
Proof.
  unfold for_user_campus, accessible_to_user.
  destruct (role_eqb (role u) SuperAdmin); reflexivity.
Qed.

Lemma for_campus_idem {Row : Type} (f : Row -> Z) (qs : list Row) (k : Z) :
  for_campus f (for_campus f qs k) k = for_campus f qs k.
Proof.
  unfold for_campus. induction qs as [|r qs IH]; simpl; [reflexivity|].
  destruct (f r =? k) eqn:Hr; simpl; [rewrite Hr, IH|]; exact IH || reflexivity.
Qed.

Lemma accessible_to_user_shape {Row : Type} (f : Row -> Z)
    (campuses : list Campus) (u : User) (campus_id : option Z) :
  (forall qs, accessible_to_user f campuses qs u campus_id = qs) \/
  exists k, forall qs, accessible_to_user f campuses qs u campus_id = for_campus f qs k.
Proof.
  unfold accessible_to_user. destruct (role_eqb (role u) SuperAdmin).
  - destruct campus_id as [c|]; [|now left].
    destruct (c =? 0); [now left|right; now exists c].
  - right. destruct campus_id as [c|]; [|now exists (user_campus_id u)].
    destruct (negb (c =? 0) && _); [now exists c|now exists (user_campus_id u)].
Qed.

(** [accessible_to_user] only drops rows, and applying it a second time
    with the same user and campus id changes nothing. *)
Theorem accessible_to_user_idem_sub {Row : Type} (f : Row -> Z)
    (campuses : list Campus) (qs : list Row) (u : User) (campus_id : option Z) :
  accessible_to_user f campuses (accessible_to_user f campuses qs u campus_id) u campus_id
  = accessible_to_user f campuses qs u campus_id /\
  (forall r, In r (accessible_to_user f campuses qs u campus_id) -> In r qs).
Proof.
  destruct (accessible_to_user_shape f campuses u campus_id) as [H|[k H]];
    rewrite !H.
  - split; [reflexivity|tauto].
  - split; [apply for_campus_idem|].
    intros r Hr. unfold for_campus in Hr. apply filter_In in Hr. tauto.
Qed.

(* ------------------------------------------------------------------ *)
(** ** The campus middleware *)

(** The ids the middleware puts in [request.accessible_campuses]. *)
Lemma process_request_accessible (campuses : list Campus) (u : User)
    (header : option string) (ctx : RequestContext) :
  process_request campuses (Some u) header = Passed ctx ->
  request_accessible_campuses ctx =
  map campus_pk
    (filter (fun c => Z_mem (campus_pk c) (get_accessible_campus_ids campuses u)
                      && campus_is_active c) campuses).
Proof.
  unfold process_request. intros H.
  destruct header as [h|]; [|now injection H as <-].
  destruct (negb (String.eqb h "") && _); [|now injection H as <-].
  destruct (py_int h) as [x|]; [|now injection H as <-].
  destruct (objects_get campuses _); try discriminate; now injection H as <-.
Qed.

(** [request.accessible_campuses] only lists active campuses of the
    user's accessible set; for a super-admin it is every active campus;
    an anonymous request gets no campus and an empty list. *)
Theorem middleware_accessible_campuses (campuses : list Campus) (u : User)
    (header : option string) (ctx : RequestContext) :
  process_request campuses None header = Passed (mkRequestContext None []) /\
  (process_request campuses (Some u) header = Passed ctx ->
   (forall c, In c (request_accessible_campuses ctx) ->
      In c (get_accessible_campus_ids campuses u) /\
      exists cp, In cp campuses /\ campus_is_active cp = true /\ campus_pk cp = c) /\
   (role u = SuperAdmin ->
      request_accessible_campuses ctx = active_campus_ids campuses)).
Proof.
  split; [reflexivity|]. intros H.
  rewrite (process_request_accessible campuses u header ctx H). split.
  - intros c Hc. apply in_map_iff in Hc as (cp & <- & Hc).
    apply filter_In in Hc as [Hin Hf]. apply andb_prop in Hf as [Hm Ha].
    split; [now apply Z_mem_In|]. now exists cp.
  - intros Hs. unfold get_accessible_campus_ids. rewrite Hs. simpl.
    unfold active_campus_ids. f_equal. apply filter_ext_in.
    intros c Hc. destruct (campus_is_active c) eqn:Ha; [|apply andb_false_r].
    rewrite andb_true_r. apply Z_mem_In. apply in_map. apply filter_In. now split.
Qed.

(** The middleware result in full, with unique campus primary keys. *)
Lemma process_request_passed (campuses : list Campus) (u : User)
    (header : option string) :
  NoDup (map campus_pk campuses) ->
  process_request campuses (Some u) header =
  Passed (mkRequestContext
    (Some (match header with
           | Some h =>
               match py_int h with
               | Some x =>
                   if (role_eqb (role u) CampusAdmin || role_eqb (role u) SuperAdmin)
                      && Z_mem x (get_accessible_campus_ids campuses u)
                      && existsb (fun c => campus_pk c =? x) campuses
                   then x else user_campus_id u
               | None => user_campus_id u
               end
           | None => user_campus_id u
           end))
    (map campus_pk
       (filter (fun c => Z_mem (campus_pk c) (get_accessible_campus_ids campuses u)
                         && campus_is_active c) campuses))).
Proof.
  intros Hnd. unfold process_request.
  destruct header as [h|]; [|reflexivity].
  destruct (String.eqb h "") eqn:He.
  - apply String.eqb_eq in He. subst h. reflexivity.
  - simpl. destruct (py_int h) as [x|];
      [|destruct (role_eqb (role u) CampusAdmin || role_eqb (role u) SuperAdmin);
        reflexivity].
    destruct (role_eqb (role u) CampusAdmin || role_eqb (role u) SuperAdmin);
      simpl; [|reflexivity].
    pose proof (objects_get_pk campuses x
                  (fun c => Z_mem (campus_pk c) (get_accessible_campus_ids campuses u))
                  Hnd) as Hg.
    cbv beta in Hg. rewrite existsb_pk_mem in Hg.
    destruct (objects_get campuses _) as [c| |].
    + destruct Hg as [Hc Hex]. rewrite Hex, Hc. reflexivity.
    + rewrite Hg. reflexivity.
    + contradiction.
Qed.

(** With unique campus primary keys the middleware never raises, and the
    effective campus is the home campus or an existing campus of the
    user's accessible set: an override never leaves that set. *)
Theorem middleware_effective_in_scope (campuses : list Campus) (u : User)
    (header : option string) :
  NoDup (map campus_pk campuses) ->
  exists ctx, process_request campuses (Some u) header = Passed ctx /\
  match request_campus ctx with
  | Some c =>
      c = user_campus_id u \/
      (In c (get_accessible_campus_ids campuses u) /\
       exists cp, In cp campuses /\ campus_pk cp = c)
  | None => False
  end.
Proof.
  intros Hnd. rewrite (process_request_passed campuses u header Hnd).
  eexists. split; [reflexivity|]. simpl.
  destruct header as [h|]; [|now left].
  destruct (py_int h) as [x|]; [|now left].
  destruct ((role_eqb (role u) CampusAdmin || role_eqb (role u) SuperAdmin)
            && Z_mem x (get_accessible_campus_ids campuses u)
            && existsb (fun c => campus_pk c =? x) campuses) eqn:Hc; [|now left].
  right. apply andb_prop in Hc as [Hc Hex]. apply andb_prop in Hc as [_ Hm].
  split; [now apply Z_mem_In|].
  apply existsb_exists in Hex as (cp & Hin & Hp). apply Z.eqb_eq in Hp.
  now exists cp.
Qed.

Lemma middleware_effective_in_scope_witness :
  NoDup (map campus_pk campuses_123) /\
  process_request campuses_123 (Some (mkUser 7 1 CampusAdmin [2; 3; 99]))
    (Some "99"%string) = Passed (mkRequestContext (Some 1) [2; 3]).
Proof.
  assert (Hnd : NoDup (map campus_pk campuses_123))
    by (repeat constructor; simpl; lia).
  split; [exact Hnd|].
  destruct (middleware_effective_in_scope campuses_123
              (mkUser 7 1 CampusAdmin [2; 3; 99]) (Some "99"%string) Hnd)
    as (ctx & Hp & _).
  rewrite Hp. vm_compute in Hp. injection Hp as <-. reflexivity.
Defined.

(* ------------------------------------------------------------------ *)
(** ** [str] and [int] on the campus header *)

Lemma digit_value_of_digit (d : Z) :
  0 <= d <= 9 -> digit_value (ascii_of_digit d) = Some d.
Proof.
  intros Hd. unfold digit_value, ascii_of_digit.
  rewrite nat_ascii_embedding by lia.
  replace ((48 <=? Z.to_nat d + 48)%nat && (Z.to_nat d + 48 <=? 57)%nat) with true.
  - f_equal. lia.
  - symmetry. apply andb_true_intro. split; apply Nat.leb_le; lia.
Qed.

Lemma dec_digits_value (f : nat) (n : Z) (acc : list ascii) :
  0 <= n -> (Z.to_nat n < f)%nat ->
  digits_value (dec_digits f n acc) 0 false = digits_value acc n true.
Proof.
  revert n acc. induction f as [|f IH]; intros n acc Hn Hf; [lia|].
  pose proof (Z.div_mod n 10 ltac:(lia)) as Hdm.
  pose proof (Z.mod_pos_bound n 10 ltac:(lia)) as Hb.
  simpl. destruct (n / 10 =? 0) eqn:Hq.
  - apply Z.eqb_eq in Hq. simpl.
    rewrite digit_value_of_digit by lia. f_equal. lia.
  - apply Z.eqb_neq in Hq.
    assert (0 <= n / 10) by (apply Z.div_pos; lia).
    rewrite IH by lia. simpl.
    rewrite digit_value_of_digit by lia. f_equal. lia.
Qed.

Lemma dec_digits_chars (f : nat) (n : Z) (acc : list ascii) :
  0 <= n -> (forall c, In c acc -> digit_value c <> None) ->
  forall c, In c (dec_digits f n acc) -> digit_value c <> None.
Proof.
  revert n acc. induction f as [|f IH]; intros n acc Hn Hacc; simpl; [exact Hacc|].
  pose proof (Z.mod_pos_bound n 10 ltac:(lia)) as Hb.
  assert (Hacc' : forall c, In c (ascii_of_digit (n mod 10) :: acc) ->
                            digit_value c <> None).
  { intros c [<-|Hc]; [|exact (Hacc c Hc)].
    rewrite digit_value_of_digit by lia. discriminate. }
  destruct (n / 10 =? 0); [exact Hacc'|].
  apply IH; [apply Z.div_pos; lia|exact Hacc'].
Qed.

Lemma digit_char_plain (c : ascii) :
  digit_value c <> None ->
  is_py_space c = false /\ Ascii.eqb c "-"%char = false /\
  Ascii.eqb c "+"%char = false.
Proof.
  intros H.
  destruct c as [[] [] [] [] [] [] [] []]; vm_compute in H |- *;
    first [exact (conj eq_refl (conj eq_refl eq_refl)) | exfalso; now apply H].
Qed.

Lemma strip_left_plain (l : list ascii) :
  (forall c, In c l -> is_py_space c = false) -> strip_left l = l.
Proof.
  destruct l as [|c l]; intros H; [reflexivity|]. simpl.
  now rewrite (H c (or_introl eq_refl)).
Qed.

Lemma py_strip_plain (l : list ascii) :
  (forall c, In c l -> is_py_space c = false) -> py_strip l = l.
Proof.
  intros H. unfold py_strip. rewrite (strip_left_plain l H).
  rewrite strip_left_plain; [apply rev_involutive|].
  intros c Hc. apply H. now apply in_rev.
Qed.

Lemma digit_value_range (c : ascii) (d : Z) :
  digit_value c = Some d -> 0 <= d <= 9.
Proof.
  unfold digit_value. destruct (_ && _) eqn:H; [|discriminate].
  intros Hd. injection Hd as <-. apply andb_prop in H as [H1 H2].
  apply Nat.leb_le in H1, H2. lia.
Qed.

Lemma digit_count_cons (c : ascii) (r : list ascii) :
  digit_count (c :: r)
  = (match digit_value c with Some _ => 1 | None => 0 end + digit_count r)%nat.
Proof. unfold digit_count. simpl. destruct (digit_value c); reflexivity. Qed.

Lemma digits_value_bound (l : list ascii) (acc : Z) (b : bool) (x : Z) :
  0 <= acc -> digits_value l acc b = Some x ->
  acc <= x < (acc + 1) * 10 ^ Z.of_nat (digit_count l).
Proof.
  revert acc b. induction l as [|c r IH]; intros acc b Hacc H; simpl in H.
  - destruct b; [injection H as <-|discriminate]. simpl. lia.
  - rewrite digit_count_cons.
    assert (Hp : 0 < 10 ^ Z.of_nat (digit_count r)) by (apply Z.pow_pos_nonneg; lia).
    destruct (digit_value c) as [d|] eqn:Hd.
    + pose proof (digit_value_range c d Hd) as Hdr.
      apply IH in H; [|lia].
      replace (Z.of_nat (1 + digit_count r)) with (Z.succ (Z.of_nat (digit_count r)))
        by lia.
      rewrite Z.pow_succ_r by lia. nia.
    + destruct (b && Ascii.eqb c "_"%char); [|discriminate].
      apply IH in H; [|lia]. exact H.
Qed.

Lemma int_digits_bound (l : list ascii) (x : Z) :
  int_digits l = Some x -> 0 <= x < 10 ^ max_str_digits.
Proof.
  unfold int_digits. destruct (max_str_digits <? _) eqn:Hm; [discriminate|].
  intros H. apply digits_value_bound in H; [|lia]. apply Z.ltb_ge in Hm.
  assert (10 ^ Z.of_nat (digit_count l) <= 10 ^ max_str_digits)
    by (apply Z.pow_le_mono_r; lia).
  lia.
Qed.

(** Whatever [int] accepts has at most [max_str_digits] digits. *)
Lemma py_int_bound (s : string) (x : Z) :
  py_int s = Some x -> Z.abs x < 10 ^ max_str_digits.
Proof.
  unfold py_int. destruct (py_strip (list_ascii_of_string s)) as [|c r]; [discriminate|].
  destruct (Ascii.eqb c "-"%char); [|destruct (Ascii.eqb c "+"%char)].
  - destruct (int_digits r) as [y|] eqn:H; cbn [option_map]; [|discriminate].
    intros Hx. injection Hx as <-. apply int_digits_bound in H. lia.
  - intros H. apply int_digits_bound in H. lia.
  - intros H. apply int_digits_bound in H. lia.
Qed.

Lemma dec_digits_length (f : nat) (n : Z) (acc : list ascii) (k : Z) :
  1 <= k -> 0 <= n < 10 ^ k ->
  Z.of_nat (List.length (dec_digits f n acc)) <= Z.of_nat (List.length acc) + k.
Proof.
  revert n acc k. induction f as [|f IH]; intros n acc k Hk Hn; simpl; [lia|].
  destruct (n / 10 =? 0) eqn:Hq; [simpl; lia|].
  apply Z.eqb_neq in Hq.
  assert (H10 : 10 <= n).
  { destruct (Z_lt_le_dec n 10) as [Hl|Hl]; [|exact Hl].
    exfalso. apply Hq. apply Z.div_small. lia. }
  assert (Hk2 : 2 <= k).
  { destruct (Z.eq_dec k 1) as [->|]; [simpl in Hn; lia|lia]. }
  replace k with (Z.succ (k - 1)) in Hn by lia.
  rewrite Z.pow_succ_r in Hn by lia.
  assert (Hd : 0 <= n / 10 < 10 ^ (k - 1)).
  { split; [apply Z.div_pos; lia|]. apply Z.div_lt_upper_bound; lia. }
  specialize (IH (n / 10) (ascii_of_digit (n mod 10) :: acc) (k - 1)
                 ltac:(lia) Hd).
  change (List.length (ascii_of_digit (n mod 10) :: acc)) with (S (List.length acc)) in IH.
  rewrite Nat2Z.inj_succ in IH. lia.
Qed.

Lemma int_digits_cases (l : list ascii) :
  int_digits l = None \/ int_digits l = digits_value l 0 false.
Proof. unfold int_digits. destruct (_ <? _); [left|right]; reflexivity. Qed.

Lemma int_digits_small (l : list ascii) :
  Z.of_nat (digit_count l) <= max_str_digits ->
  int_digits l = digits_value l 0 false.
Proof.
  intros H. unfold int_digits.
  destruct (max_str_digits <? _) eqn:Hm; [apply Z.ltb_lt in Hm; lia|reflexivity].
Qed.

Lemma digit_count_le (l : list ascii) : (digit_count l <= List.length l)%nat.
Proof. apply filter_length_le. Qed.

(** [int(str(z))] is [z], or a [ValueError] when [z] has too many digits. *)
Lemma py_int_py_str_cases (z : Z) :
  py_int (py_str z) = Some z \/ py_int (py_str z) = None.
Proof.
  unfold py_int, py_str. rewrite list_ascii_of_string_of_list_ascii.
  destruct (z <? 0) eqn:Hz.
  - apply Z.ltb_lt in Hz.
    assert (Hch := dec_digits_chars (S (Z.to_nat (- z))) (- z) [] ltac:(lia)
                     (fun c H => match H with end)).
    assert (Hv := dec_digits_value (S (Z.to_nat (- z))) (- z) [] ltac:(lia) ltac:(lia)).
    remember (dec_digits (S (Z.to_nat (- z))) (- z) []) as D eqn:HD.
    rewrite py_strip_plain.
    + simpl. destruct (int_digits_cases D) as [Hi|Hi]; rewrite Hi; [now right|left].
      rewrite Hv. simpl. f_equal. lia.
    + intros c [<-|Hc]; [reflexivity|]. exact (proj1 (digit_char_plain c (Hch c Hc))).
  - apply Z.ltb_ge in Hz.
    assert (Hch := dec_digits_chars (S (Z.to_nat z)) z [] Hz
                     (fun c H => match H with end)).
    assert (Hv := dec_digits_value (S (Z.to_nat z)) z [] Hz ltac:(lia)).
    rewrite py_strip_plain by (intros c Hc; exact (proj1 (digit_char_plain c (Hch c Hc)))).
    remember (dec_digits (S (Z.to_nat z)) z []) as D eqn:HD.
    destruct D as [|c r]; [discriminate|].
    destruct (digit_char_plain c (Hch c (or_introl eq_refl))) as (_ & Hm & Hp).
    rewrite Hm, Hp. destruct (int_digits_cases (c :: r)) as [Hi|Hi]; rewrite Hi; [now right|].
    left. exact Hv.
Qed.

(** [int(str(z)) == z] for every integer [str] can print (at most
    [max_str_digits] digits). *)
Lemma py_int_py_str (z : Z) :
  Z.abs z < 10 ^ max_str_digits -> py_int (py_str z) = Some z.
Proof.
  intros Hb.
  assert (Hk : 1 <= max_str_digits) by (unfold max_str_digits; lia).
  unfold py_int, py_str. rewrite list_ascii_of_string_of_list_ascii.
  destruct (z <? 0) eqn:Hz.
  - apply Z.ltb_lt in Hz.
    assert (Hch := dec_digits_chars (S (Z.to_nat (- z))) (- z) [] ltac:(lia)
                     (fun c H => match H with end)).
    assert (Hv := dec_digits_value (S (Z.to_nat (- z))) (- z) [] ltac:(lia) ltac:(lia)).
    assert (Hl := dec_digits_length (S (Z.to_nat (- z))) (- z) [] max_str_digits Hk
                    ltac:(lia)).
    remember (dec_digits (S (Z.to_nat (- z))) (- z) []) as D eqn:HD.
    pose proof (digit_count_le D) as Hc.
    rewrite py_strip_plain.
    + simpl. rewrite int_digits_small by (change (Z.of_nat (List.length (@nil ascii))) with 0 in Hl; lia).
      rewrite Hv. simpl. f_equal. lia.
    + intros c [<-|Hc']; [reflexivity|]. exact (proj1 (digit_char_plain c (Hch c Hc'))).
  - apply Z.ltb_ge in Hz.
    assert (Hch := dec_digits_chars (S (Z.to_nat z)) z [] Hz
                     (fun c H => match H with end)).
    assert (Hv := dec_digits_value (S (Z.to_nat z)) z [] Hz ltac:(lia)).
    assert (Hl := dec_digits_length (S (Z.to_nat z)) z [] max_str_digits Hk
                    ltac:(lia)).
    rewrite py_strip_plain by (intros c Hc; exact (proj1 (digit_char_plain c (Hch c Hc)))).
    remember (dec_digits (S (Z.to_nat z)) z []) as D eqn:HD.
    pose proof (digit_count_le D) as Hc.
    destruct D as [|c r]; [discriminate|].
    destruct (digit_char_plain c (Hch c (or_introl eq_refl))) as (_ & Hm & Hp).
    rewrite Hm, Hp. rewrite int_digits_small by (change (Z.of_nat (List.length (@nil ascii))) with 0 in Hl; lia). exact Hv.
Qed.

(** [process_response] answers with an [X-Campus-ID] header exactly when
    the request has a campus, and [int()] of that header is the campus id
    (for an id [str] can print: past [max_str_digits] digits [str] itself
    raises). *)
Theorem response_campus_header_roundtrip (campus_code : Z -> string)
    (ctx : RequestContext) (hs : list (string * string)) :
  (forall c, request_campus ctx = Some c -> Z.abs c < 10 ^ max_str_digits ->
     exists v, header_lookup (process_response campus_code ctx hs) "X-Campus-ID"
               = Some v /\ py_int v = Some c) /\
  (request_campus ctx = None -> process_response campus_code ctx hs = hs).
Proof.
  unfold process_response. split.
  - intros c -> Hb. exists (py_str c). split; [reflexivity|exact (py_int_py_str c Hb)].
  - intros ->. reflexivity.
Qed.

(** Sending back the campus id the response names, as the override
    header, selects the same effective campus again (unique primary keys). *)
Theorem override_echo_stable (campuses : list Campus) (u : User)
    (header : option string) (c : Z) :
  NoDup (map campus_pk campuses) ->
  effective_campus campuses u header = Some c ->
  effective_campus campuses u (Some (py_str c)) = Some c.
Proof.
  intros Hnd. unfold effective_campus.
  rewrite !(process_request_passed campuses u _ Hnd). simpl.
  intros Hc. injection Hc as Hc.
  assert (Ht : c = user_campus_id u \/
               ((role_eqb (role u) CampusAdmin || role_eqb (role u) SuperAdmin)
                && Z_mem c (get_accessible_campus_ids campuses u)
                && existsb (fun cp => campus_pk cp =? c) campuses = true /\
                Z.abs c < 10 ^ max_str_digits)).
  { destruct header as [h|]; [|now left].
    destruct (py_int h) as [x|] eqn:Hx; [|now left].
    destruct ((role_eqb (role u) CampusAdmin || role_eqb (role u) SuperAdmin)
              && Z_mem x (get_accessible_campus_ids campuses u)
              && existsb (fun cp => campus_pk cp =? x) campuses) eqn:Hy;
      [|now left].
    right. subst x. split; [exact Hy|exact (py_int_bound h c Hx)]. }
  destruct Ht as [->|[Ht Hb]].
  - destruct (py_int_py_str_cases (user_campus_id u)) as [Hi|Hi]; rewrite Hi; [|reflexivity].
    destruct (_ && _ && _); reflexivity.
  - rewrite (py_int_py_str c Hb), Ht. reflexivity.
Qed.

Lemma override_echo_stable_witness :
  NoDup (map campus_pk campuses_123) /\
  effective_campus campuses_123 (mkUser 7 1 CampusAdmin [2; 3]) (Some "3"%string)
    = Some 3 /\
  effective_campus campuses_123 (mkUser 7 1 CampusAdmin [2; 3])
    (Some (py_str 3)) = Some 3.
Proof.
  assert (Hnd : NoDup (map campus_pk campuses_123))
    by (repeat constructor; simpl; lia).
  assert (H3 : effective_campus campuses_123 (mkUser 7 1 CampusAdmin [2; 3])
                 (Some "3"%string) = Some 3) by reflexivity.
  split; [exact Hnd|]. split; [exact H3|].
  exact (override_echo_stable campuses_123 _ _ 3 Hnd H3).
Defined.

(* ------------------------------------------------------------------ *)
(** ** Event timing *)

(** [Event.is_ongoing] combines both times with the one event date, so
    an event whose end time is before its start time (one that runs past
    midnight) is never ongoing. *)
Theorem is_ongoing_overnight_never (e : Event) (now : Z) :
  end_time e < start_time e -> is_ongoing e now = false.
Proof.
  intros Hlt. unfold is_ongoing.
  destruct (combine (date e) (start_time e) <=? now) eqn:H1; [|reflexivity].
  simpl. apply Z.leb_le in H1. apply Z.leb_gt.
  unfold combine, minutes_per_day in *. lia.
Qed.


(** An event on day 0 from 23:00 to 01:00. *)
Definition event_overnight : Event :=
  {| event_pk := "e4"; event_campus_id := 1; date := 0; start_time := 1380;
     end_time := 60; is_multi_campus := false; allowed_campuses := [];
     max_participants := None; qr_code := None; qr_code_data := "";
     attendance_window_start := None; attendance_window_end := None |}.

Lemma is_ongoing_overnight_never_witness :
  end_time event_overnight < start_time event_overnight /\
  is_ongoing event_overnight 1400 = false.
Proof.
  assert (H : end_time event_overnight < start_time event_overnight)
    by (simpl; lia).
  split; [exact H|exact (is_ongoing_overnight_never event_overnight 1400 H)].
Defined.

(* ------------------------------------------------------------------ *)
(** ** Per-campus attendance counts *)

Lemma sum_indicator_notin (c0 : Z) (cs : list Z) :
  ~ In c0 cs -> list_sum (map (fun c => if c0 =? c then 1%nat else 0%nat) cs) = 0%nat.
Proof.
  induction cs as [|c cs IH]; intros Hn; simpl; [reflexivity|].
  destruct (c0 =? c) eqn:H.
  - apply Z.eqb_eq in H. exfalso. apply Hn. now left.
  - apply IH. intros Hi. apply Hn. now right.
Qed.

Lemma sum_indicator_in (c0 : Z) (cs : list Z) :
  NoDup cs -> In c0 cs ->
  list_sum (map (fun c => if c0 =? c then 1%nat else 0%nat) cs) = 1%nat.
Proof.
  induction cs as [|c cs IH]; intros Hnd Hi; [destruct Hi|].
  inversion Hnd as [|? ? Hc Hnd']; subst. simpl.
  destruct (c0 =? c) eqn:H.
  - apply Z.eqb_eq in H. subst c0. rewrite sum_indicator_notin by exact Hc. reflexivity.
  - destruct Hi as [->|Hi]; [rewrite Z.eqb_refl in H; discriminate|].
    rewrite (IH Hnd' Hi). reflexivity.
Qed.

Lemma list_sum_map_add {A} (f g : A -> nat) (l : list A) :
  list_sum (map (fun x => (f x + g x)%nat) l)
  = (list_sum (map f l) + list_sum (map g l))%nat.
Proof. induction l as [|x l IH]; simpl; [reflexivity|]. rewrite IH. lia. Qed.

Lemma partition_count {A} (key : A -> option Z) (cs : list Z) (l : list A) :
  NoDup cs -> (forall a, In a l -> exists c, key a = Some c /\ In c cs) ->
  list_sum (map (fun c => List.length
     (filter (fun a => match key a with Some c' => c' =? c | None => false end) l)) cs)
  = List.length l.
Proof.
  intros Hnd. induction l as [|a l IH]; intros Hk; simpl.
  - clear Hk. induction cs as [|c cs IHc]; simpl; [reflexivity|].
    inversion Hnd; subst. auto.
  - destruct (Hk a (or_introl eq_refl)) as (c0 & Hka & Hc0).
    rewrite Hka.
    transitivity (list_sum (map (fun c => ((if Z.eqb c0 c then 1 else 0) +
       List.length (filter (fun a => match key a with Some c' => Z.eqb c' c
                                                   | None => false end) l))%nat) cs)).
    + f_equal. apply map_ext. intros c. destruct (c0 =? c); reflexivity.
    + rewrite list_sum_map_add, sum_indicator_in by assumption.
      rewrite IH; [reflexivity|]. intros b Hb. apply Hk. now right.
Qed.

(** When every present record of the event has its campus among the
    distinct ids [cs], the per-campus counts of
    [get_attendance_for_campus] add up to [attendance_count]. *)
Theorem campus_counts_sum (s : list Attendance) (e : Event) (cs : list Z) :
  NoDup cs ->
  (forall a, In a (attendance_records s e) -> att_status a = Present ->
             exists c, att_campus_id a = Some c /\ In c cs) ->
  list_sum (map (get_attendance_for_campus s e) cs) = attendance_count s e.
Proof.
  intros Hnd Hk. unfold get_attendance_for_campus, attendance_count.
  rewrite <- (partition_count att_campus_id cs
               (filter (fun a => is_present (att_status a)) (attendance_records s e)) Hnd).
  - f_equal. apply map_ext. intros c. f_equal.
    generalize (attendance_records s e) as l.
    induction l as [|a l IH]; simpl; [reflexivity|].
    destruct (is_present (att_status a)) eqn:Hp; simpl;
      destruct (att_campus_id a) as [c'|]; rewrite ?Hp, ?andb_true_r, ?andb_false_r;
      try destruct (c' =? c); simpl; rewrite ?IH; reflexivity.
  - intros a Ha. apply filter_In in Ha as [Ha Hp].
    apply Hk; [exact Ha|]. destruct (att_status a); simpl in Hp; congruence.
Qed.

(** The per-campus counts of the one record in [store_after_a]. *)
Lemma campus_counts_sum_witness :
  NoDup [1; 2] /\
  list_sum (map (get_attendance_for_campus store_after_a event_cap1) [1; 2])
  = attendance_count store_after_a event_cap1 /\
  attendance_count store_after_a event_cap1 = 1%nat.
Proof.
  assert (Hnd : NoDup [1; 2]).
  { constructor; [simpl; lia|]. constructor; [simpl; tauto|constructor]. }
  split; [exact Hnd|]. split; [|reflexivity].
  apply (campus_counts_sum store_after_a event_cap1 [1; 2] Hnd).
  intros a Ha _. simpl in Ha. destruct Ha as [<-|[]].
  exists 1. split; [reflexivity|simpl; tauto].
Defined.

(* ------------------------------------------------------------------ *)
(** ** The events table after [Event.save] *)

Lemma filter_pk_notin (l : list Event) (k : string) :
  ~ In k (map event_pk l) -> filter (fun r => String.eqb (event_pk r) k) l = [].
Proof.
  induction l as [|r l IH]; intros Hn; simpl; [reflexivity|].
  destruct (String.eqb (event_pk r) k) eqn:H.
  - apply String.eqb_eq in H. exfalso. apply Hn. now left.
  - apply IH. intros Hi. apply Hn. now right.
Qed.

Lemma upsert_event_pks (db : list Event) (x : Event) (k : string) :
  In k (map event_pk (upsert_event db x)) -> k = event_pk x \/ In k (map event_pk db).
Proof.
  induction db as [|r db IH]; simpl.
  - intros [<-|[]]. now left.
  - destruct (String.eqb (event_pk r) (event_pk x)) eqn:H; simpl.
    + apply String.eqb_eq in H. intros [<-|Hk]; [left; now symmetry|tauto].
    + intros [<-|Hk]; [tauto|]. destruct (IH Hk); tauto.
Qed.

Lemma upsert_event_nodup (db : list Event) (x : Event) :
  NoDup (map event_pk db) -> NoDup (map event_pk (upsert_event db x)).
Proof.
  induction db as [|r db IH]; simpl; intros Hnd.
  - constructor; [simpl; tauto|constructor].
  - inversion Hnd as [|? ? Hr Hnd']; subst.
    destruct (String.eqb (event_pk r) (event_pk x)) eqn:H; simpl.
    + apply String.eqb_eq in H. rewrite <- H. constructor; assumption.
    + constructor; [|exact (IH Hnd')].
      intros Hi. destruct (upsert_event_pks db x _ Hi) as [He|He]; [|contradiction].
      rewrite He, String.eqb_refl in H. discriminate.
Qed.

Lemma filter_upsert_event (db : list Event) (x : Event) :
  NoDup (map event_pk db) ->
  filter (fun r => String.eqb (event_pk r) (event_pk x)) (upsert_event db x) = [x].
Proof.
  induction db as [|r db IH]; simpl; intros Hnd.
  - rewrite String.eqb_refl. reflexivity.
  - inversion Hnd as [|? ? Hr Hnd']; subst.
    destruct (String.eqb (event_pk r) (event_pk x)) eqn:H; simpl.
    + rewrite String.eqb_refl. apply String.eqb_eq in H. rewrite <- H.
      rewrite filter_pk_notin by exact Hr. reflexivity.
    + rewrite H. exact (IH Hnd').
Qed.

Lemma update_qr_pks (db : list Event) (id : string) (img : option string) (data : string) :
  map event_pk (update_qr db id img data) = map event_pk db.
Proof.
  unfold update_qr. rewrite map_map. apply map_ext. intros r.
  destruct (String.eqb (event_pk r) id); reflexivity.
Qed.

Lemma filter_update_qr (db : list Event) (id : string) (img : option string)
    (data : string) :
  filter (fun r => String.eqb (event_pk r) id) (update_qr db id img data)
  = map (fun r => set_qr r img data) (filter (fun r => String.eqb (event_pk r) id) db).
Proof.
  unfold update_qr. induction db as [|r db IH]; simpl; [reflexivity|].
  destruct (String.eqb (event_pk r) id) eqn:H; simpl; rewrite ?H, IH; reflexivity.
Qed.

(** Saving an event into a table with distinct primary keys keeps them
    distinct, and [Event.objects.get(id=...)] then returns exactly the
    instance [save] leaves in memory (window and QR fields included). *)
Theorem event_save_table (db : list Event) (e : Event) :
  NoDup (map event_pk db) ->
  NoDup (map event_pk (fst (event_save db e))) /\
  objects_get (fst (event_save db e)) (fun r => String.eqb (event_pk r) (event_pk e))
  = Found (snd (event_save db e)).
Proof.
  intros Hnd.
  destruct (event_save_shape db e) as (e0 & Hpk & _ & _ & ->).
  rewrite <- Hpk. destruct (qr_code e); simpl.
  - split; [exact (upsert_event_nodup db e0 Hnd)|].
    unfold objects_get. rewrite filter_upsert_event by exact Hnd. reflexivity.
  - split; [rewrite update_qr_pks; exact (upsert_event_nodup db e0 Hnd)|].
    unfold objects_get. rewrite filter_update_qr, filter_upsert_event by exact Hnd.
    reflexivity.
Qed.

Lemma event_save_table_witness :
  NoDup (map event_pk [event_open]) /\
  List.length (fst (event_save [event_open] event_overnight)) = 2%nat /\
  objects_get (fst (event_save [event_open] event_overnight))
    (fun r => String.eqb (event_pk r) (event_pk event_overnight))
  = Found (snd (event_save [event_open] event_overnight)).
Proof.
  assert (Hnd : NoDup (map event_pk [event_open])).
  { constructor; [simpl; tauto|constructor]. }
  split; [exact Hnd|]. split; [reflexivity|].
  exact (proj2 (event_save_table [event_open] event_overnight Hnd)).
Defined.

(* ------------------------------------------------------------------ *)
(** ** The attendance count of a user *)

Lemma keys_same_user_nodup (l : list Attendance) (k : Z) :
  NoDup (map att_key l) -> (forall a, In a l -> att_user a = k) ->
  NoDup (map att_event l).
Proof.
  induction l as [|a l IH]; simpl; intros Hnd Hk; [constructor|].
  apply NoDup_cons_iff in Hnd as [Hna Hnd']. constructor.
  - rewrite in_map_iff. intros (b & Hb & Hbl). apply Hna.
    rewrite in_map_iff. exists b. split; [|exact Hbl].
    unfold att_key. rewrite Hb, (Hk b (or_intror Hbl)), (Hk a (or_introl eq_refl)).
    reflexivity.
  - apply IH; [exact Hnd'|]. intros b Hb. apply Hk. now right.
Qed.

(** In any table the unique constraint allows, the rows counted by
    [get_attendance_count] without a campus belong to distinct events. *)
Theorem user_attendance_distinct_events (s : list Attendance) (u : User) :
  reachable s ->
  NoDup (map att_event (filter (fun a => Z.eqb (att_user a) (user_pk u)) s)) /\
  List.length (map att_event (filter (fun a => Z.eqb (att_user a) (user_pk u)) s))
  = get_attendance_count s u None.
Proof.
  intros Hr. split; [|apply length_map].
  apply (keys_same_user_nodup _ (user_pk u)).
  - apply keys_filter_nodup. exact (reachable_unique s Hr).
  - intros a Ha. apply filter_In in Ha as [_ Ha]. now apply Z.eqb_eq.
Qed.

Lemma user_attendance_distinct_events_witness :
  reachable store_after_a /\
  map att_event (filter (fun a => Z.eqb (att_user a) (user_pk actor_a)) store_after_a)
  = ["e1"%string] /\
  get_attendance_count store_after_a actor_a None = 1%nat.
Proof.
  split; [exact store_after_a_reachable|]. split; [reflexivity|].
  rewrite <- (proj2 (user_attendance_distinct_events store_after_a actor_a
                      store_after_a_reachable)).
  reflexivity.
Defined.

(** A campus id of 0 is falsy and counts every campus; any other id
    counts a subset of the user's rows. *)
Theorem get_attendance_count_campus (s : list Attendance) (u : User) (c : Z) :
  get_attendance_count s u (Some 0) = get_attendance_count s u None /\
  (get_attendance_count s u (Some c) <= get_attendance_count s u None)%nat.
Proof.
  split; [reflexivity|]. unfold get_attendance_count.
  destruct (c =? 0); [lia|]. apply filter_length_le.
Qed.

(* ------------------------------------------------------------------ *)
(** ** The override campus and the campus list of the API *)

(** A campus the override header switches a request to (away from the
    home campus) is one of the rows [CampusViewSet.get_queryset] lists
    for the same user (unique primary keys). *)
Theorem override_campus_listed (campuses : list Campus) (u : User)
    (header : option string) (c : Z) :
  NoDup (map campus_pk campuses) ->
  effective_campus campuses u header = Some c -> c <> user_campus_id u ->
  exists cp, In cp (campus_viewset_queryset campuses u) /\ campus_pk cp = c.
Proof.
  intros Hnd. unfold effective_campus.
  rewrite (process_request_passed campuses u header Hnd). simpl.
  intros Hc Hne. injection Hc as Hc.
  destruct header as [h|]; [|congruence].
  destruct (py_int h) as [x|]; [|congruence].
  destruct ((role_eqb (role u) CampusAdmin || role_eqb (role u) SuperAdmin)
            && Z_mem x (get_accessible_campus_ids campuses u)
            && existsb (fun cp => campus_pk cp =? x) campuses) eqn:Hx; [|congruence].
  subst x. apply andb_prop in Hx as [Hx Hex]. apply andb_prop in Hx as [_ Hm].
  apply existsb_exists in Hex as (cp & Hin & Hp). apply Z.eqb_eq in Hp.
  exists cp. split; [|exact Hp].
  unfold campus_viewset_queryset. destruct (role_eqb (role u) SuperAdmin); [exact Hin|].
  apply filter_In. split; [exact Hin|]. rewrite Hp. exact Hm.
Qed.

Lemma override_campus_listed_witness :
  NoDup (map campus_pk campuses_123) /\
  effective_campus campuses_123 (mkUser 7 1 CampusAdmin [2; 3]) (Some "3"%string)
    = Some 3 /\
  exists cp, In cp (campus_viewset_queryset campuses_123 (mkUser 7 1 CampusAdmin [2; 3]))
             /\ campus_pk cp = 3.
Proof.
  assert (Hnd : NoDup (map campus_pk campuses_123))
    by (repeat constructor; simpl; lia).
  assert (He : effective_campus campuses_123 (mkUser 7 1 CampusAdmin [2; 3])
                 (Some "3"%string) = Some 3) by reflexivity.
  split; [exact Hnd|]. split; [exact He|].
  exact (override_campus_listed campuses_123 (mkUser 7 1 CampusAdmin [2; 3])
           (Some "3"%string) 3 Hnd He ltac:(discriminate)).
Defined.

(* ------------------------------------------------------------------ *)
(** ** The admission check under a growing attendance table *)

Lemma can_user_attend_fst_eq (s : list Attendance) (e : Event) (u : User) (now : Z) :
  fst (can_user_attend s e u now)
  = (if is_multi_campus e then Z_mem (user_campus_id u) (allowed_campuses e)
     else Z.eqb (user_campus_id u) (event_campus_id e))
    && negb (match max_participants e with
             | Some m => negb (N.eqb m 0) && (N.to_nat m <=? attendance_count s e)%nat
             | None => false
             end)
    && negb (existsb (fun a => Z.eqb (att_user a) (user_pk u)) (attendance_records s e))
    && can_mark_attendance e now.
Proof.
  unfold can_user_attend.
  destruct (is_multi_campus e), (user_campus_id u =? event_campus_id e),
    (Z_mem (user_campus_id u) (allowed_campuses e)), (can_mark_attendance e now);
    simpl; split_ifs; reflexivity.
Qed.

Lemma attendance_count_app (s t : list Attendance) (e : Event) :
  (attendance_count s e <= attendance_count (s ++ t) e)%nat.
Proof.
  unfold attendance_count, attendance_records. rewrite !filter_app, length_app. lia.
Qed.

(** More attendance rows can only turn a yes of [can_user_attend] into a
    no: a user admitted with the rows [s ++ t] is admitted with [s]. *)
Theorem can_user_attend_antitone (s t : list Attendance) (e : Event) (u : User)
    (now : Z) :
  fst (can_user_attend (s ++ t) e u now) = true ->
  fst (can_user_attend s e u now) = true.
Proof.
  rewrite !can_user_attend_fst_eq. intros H.
  apply andb_prop in H as [H Hw]. apply andb_prop in H as [H Hd].
  apply andb_prop in H as [Hc Hcap].
  assert (Hcap' : negb (match max_participants e with
                        | Some m => negb (N.eqb m 0) && (N.to_nat m <=? attendance_count s e)%nat
                        | None => false
                        end) = true).
  { destruct (max_participants e) as [m|]; [|reflexivity].
    destruct (N.eqb m 0); [reflexivity|]. simpl in Hcap |- *.
    pose proof (attendance_count_app s t e) as Hle.
    apply negb_true_iff, Nat.leb_gt in Hcap. apply negb_true_iff, Nat.leb_gt. lia. }
  assert (Hd' : negb (existsb (fun a => Z.eqb (att_user a) (user_pk u))
                        (attendance_records s e)) = true).
  { apply negb_true_iff. apply negb_true_iff in Hd.
    unfold attendance_records in Hd |- *. rewrite filter_app, existsb_app in Hd.
    apply orb_false_iff in Hd. exact (proj1 Hd). }
  rewrite Hc, Hcap', Hd', Hw. reflexivity.
Qed.

Lemma can_user_attend_antitone_witness :
  fst (can_user_attend ([] ++ store_after_a) event_open actor_b 605) = true /\
  fst (can_user_attend [] event_open actor_b 605) = true.
Proof.
  assert (H : fst (can_user_attend ([] ++ store_after_a) event_open actor_b 605) = true)
    by reflexivity.
  split; [exact H|exact (can_user_attend_antitone [] store_after_a event_open actor_b 605 H)].
Defined.
